(** * internal_displacement/pipeline.py: a shallow embedding

    CSV data is the list of rows that [csv_read] returns (each row a list of
    string cells).  Python exceptions are the constructors of [py_error];
    a computation that may raise returns a [py_result].  The SQLite store
    is a record holding the rows of the two tables created by
    [SQLArticleInterface.__init__]. *)

From Stdlib Require Import String Ascii List ZArith Bool Lia Permutation.
Import ListNotations.
Open Scope string_scope.

(** ** Python exceptions and the error monad *)

Inductive py_error : Type :=
| ValueError (msg : string)
| TypeError
| IndexError
| KeyError (key : string)
| AttributeError (name : string)
| UnboundLocalError (name : string)
| IntegrityError
| OperationalError (msg : string).

Inductive py_result (A : Type) : Type :=
| Ok (a : A)
| Err (e : py_error).
Arguments Ok {A} a.
Arguments Err {A} e.

Definition py_bind {A B} (m : py_result A) (f : A -> py_result B) : py_result B :=
  match m with
  | Ok a => f a
  | Err e => Err e
  end.

Notation "'let!' x := m 'in' k" := (py_bind m (fun x => k))
  (at level 200, x name, m at level 100, k at level 200).

(** A list comprehension whose element expression may raise: the first
    exception, in list order, escapes. *)
Fixpoint py_map {A B} (f : A -> py_result B) (l : list A) : py_result (list B) :=
  match l with
  | [] => Ok []
  | x :: xs =>
      let! y := f x in
      let! ys := py_map f xs in
      Ok (y :: ys)
  end.

(** ** Python list indexing and slicing *)

(** [l[i]] for an integer [i], negative indices counting from the end. *)
Definition py_index {A} (l : list A) (i : Z) : py_result A :=
  let n := Z.of_nat (length l) in
  let j := if (i <? 0)%Z then (n + i)%Z else i in
  if ((0 <=? j) && (j <? n))%Z then
    match nth_error l (Z.to_nat j) with
    | Some x => Ok x
    | None => Err IndexError
    end
  else Err IndexError.

(** [l[i:]] *)
Definition py_slice_from {A} (l : list A) (i : Z) : list A :=
  let n := Z.of_nat (length l) in
  if (0 <=? i)%Z then skipn (Z.to_nat i) l else skipn (Z.to_nat (n + i)) l.

(** [x in l] and [l.index(x)] on lists of strings *)
Definition py_in (x : string) (l : list string) : bool :=
  existsb (String.eqb x) l.

Fixpoint py_list_index (x : string) (l : list string) : option nat :=
  match l with
  | [] => None
  | y :: ys =>
      if String.eqb x y then Some 0
      else option_map S (py_list_index x ys)
  end.

(** [sub in s] on strings *)
Fixpoint py_substr (sub s : string) : bool :=
  String.prefix sub s ||
  match s with
  | EmptyString => false
  | String _ s' => py_substr sub s'
  end.

(** ** CSV functions *)

Definition dataset := list (list string).

(** The [column] argument of [urls_from_csv]: [None], an [int] or a [str]. *)
Inductive column_arg : Type :=
| ColNone
| ColInt (c : Z)
| ColStr (s : string).

(** Python truthiness of [column] ([if column:]). *)
Definition column_truthy (c : column_arg) : bool :=
  match c with
  | ColNone => false
  | ColInt z => negb (z =? 0)%Z
  | ColStr s => negb (String.eqb s "")
  end.

(** [line[index]] where [index] is a Python list: always a TypeError. *)
Definition index_by_list (line : list string) (index : list nat) : py_result string :=
  Err TypeError.

(** [urls_from_csv(dataset, column=None, header=1)], branch by branch;
    the [and] chains short-circuit as in Python, so [dataset[0]] is only
    read when the test reaches it. *)
Definition urls_from_csv (ds : dataset) (column : column_arg) (header : Z)
  : py_result (list string) :=
  if column_truthy column then
    match column with
    | ColInt c =>
        let! row0 := py_index ds 0 in
        if (c <? Z.of_nat (length row0))%Z then
          py_map (fun line => py_index line c) (py_slice_from ds header)
        else Err (ValueError "Column index not in range of dataset.Please choose a valid column index.")
    | ColStr s =>
        if (header =? 1)%Z then
          let! row0 := py_index ds 0 in
          if py_in s row0 then
            match py_list_index s row0 with
            | Some i => py_map (fun line => py_index line (Z.of_nat i)) (py_slice_from ds header)
            | None => Err (ValueError "unreachable")
            end
          else Err (ValueError "Invalid column name.Column name specified not in dataset.Please use a valid column name.")
        else if (header =? 0)%Z then
          Err (ValueError "Invalid use of column name.No header present in dataset.")
        else
          let! row0 := py_index ds 0 in
          if negb (py_in s row0) then
            Err (ValueError "Invalid column name.Column name specified not in dataset.Please use a valid column name.")
          else Err (ValueError "Column index not in range of dataset.Please choose a valid column index.")
    | ColNone => Err (ValueError "unreachable")
    end
  else
    match column with
    | ColNone =>
        let! first_row := py_index ds header in
        let index := map fst (filter (fun p => py_substr "http" (snd p))
                                     (combine (seq 0 (length first_row)) first_row)) in
        py_map (fun line => index_by_list line index) (py_slice_from ds header)
    | _ => Err (ValueError "Can't find any URLs!")
    end.

Example urls_by_name :
  urls_from_csv [["URL"; "x"]; ["http://a.com"; "1"]; ["http://b.com"; "2"]] (ColStr "URL") 1
  = Ok ["http://a.com"; "http://b.com"].
Proof. reflexivity. Qed.

Example urls_by_index_one :
  urls_from_csv [["x"; "URL"]; ["1"; "http://a.com"]] (ColInt 1) 1 = Ok ["http://a.com"].
Proof. reflexivity. Qed.

(** ** The SQLite store *)

(** An [Article] object as read by [insert_article]; [pub_date] is the string
    that [article.get_pub_date_string()] returns. *)
Record article : Type := mk_article {
  art_title : string;
  art_url : string;
  art_authors : list string;
  art_pub_date : string;
  art_domain : string;
  art_content : string;
  art_content_type : string;
  art_language : string
}.

Definition sql_row := list string.

(** The rows of the two tables of the database file. *)
Record db : Type := mk_db {
  articles : list sql_row;
  labels : list sql_row
}.

Definition articles_unique : list nat := [].
Definition labels_unique : list nat := [].

(** [SQLArticleInterface(file)] on a new file: both tables empty. *)
Definition init_db : db := mk_db [] [].

(** [INSERT INTO t VALUES (...)]: raises IntegrityError when a UNIQUE
    column of the new row equals that column of a stored row. *)
Definition sql_insert (unique : list nat) (rows : list sql_row) (r : sql_row)
  : py_result (list sql_row) :=
  if existsb (fun c => existsb (fun r' => String.eqb (nth c r' "") (nth c r "")) rows) unique
  then Err IntegrityError
  else Ok (rows ++ [r])%list.

(** [executemany]: the inserts one after the other. *)
Fixpoint sql_insert_many (unique : list nat) (rows : list sql_row) (rs : list sql_row)
  : py_result (list sql_row) :=
  match rs with
  | [] => Ok rows
  | r :: rs' =>
      let! rows' := sql_insert unique rows r in
      sql_insert_many unique rows' rs'
  end.

(** [SELECT url FROM t]: the url column of each stored row. *)
Definition article_urls (d : db) : list string := map (fun r => nth 1 r "") (articles d).
Definition label_urls (d : db) : list string := map (fun r => nth 0 r "") (labels d).

Definition retrieval_failed : string := "retrieval_failed".

Definition article_row (a : article) : sql_row :=
  [art_title a; art_url a; String.concat "," (art_authors a); art_pub_date a;
   art_domain a; art_content a; art_content_type a; art_language a].

(** [SQLArticleInterface.insert_article].  The IntegrityError handler
    formats with [self.url], which the object does not have, so it raises
    AttributeError; every other exception is printed and swallowed. *)
Definition insert_article (d : db) (a : article) : py_result db :=
  if String.eqb (art_content a) retrieval_failed then Ok d
  else
    match sql_insert articles_unique (articles d) (article_row a) with
    | Ok rows => Ok (mk_db rows (labels d))
    | Err IntegrityError => Err (AttributeError "url")
    | Err _ => Ok d
    end.

(** [SQLArticleInterface.update_article]: [UPDATE Articles SET language = ?
    WHERE url = ?]. *)
Definition update_article (d : db) (a : article) : py_result db :=
  Ok (mk_db (map (fun r => if String.eqb (nth 1 r "") (art_url a)
                           then (firstn 7 r ++ [art_language a] ++ skipn 8 r)%list else r)
                 (articles d))
            (labels d)).

(** What a call [scrape(url, scrape_pdfs)] does: raise, return [None], or
    return an article. *)
Inductive scrape_result : Type :=
| Raised
| NoArticle
| Got (a : article).

(** The [as_completed] loop of [process_urls] over the finished futures:
    a raised exception (from [f.result()] or from [insert_article]) is
    printed and the loop goes on. *)
Fixpoint collect (d : db) (done : list scrape_result) : db :=
  match done with
  | [] => d
  | f :: fs =>
      let d' := match f with
                | Raised => d
                | NoArticle => d
                | Got a => match insert_article d a with
                           | Ok d1 => d1
                           | Err _ => d
                           end
                end in
      collect d' fs
  end.

Section ProcessUrls.

(** The scrape collaborator: deterministic, a function of its arguments. *)
Variable scrape : string -> bool -> scrape_result.

(** [concurrent.futures.as_completed]: the order in which the submitted
    futures finish, chosen by the thread pool. *)
Variable as_completed : list scrape_result -> list scrape_result.

(** [SQLArticleInterface.process_urls(url_csv, url_column, scrape_pdfs)],
    with [csv_read(url_csv)] = [ds].  Returns the urls handed to [scrape]
    (one future each) and the outcome. *)
Definition process_urls (d : db) (ds : dataset) (url_column : column_arg)
  (scrape_pdfs : bool) : list string * py_result db :=
  match urls_from_csv ds url_column 1 with
  | Err e => ([], Err e)
  | Ok urls =>
      let existing_urls := article_urls d in
      let urls := filter (fun u => negb (py_in u existing_urls)) urls in
      let futures := map (fun u => scrape u scrape_pdfs) urls in
      (urls, Ok (collect d (as_completed futures)))
  end.

End ProcessUrls.

(** The DataFrame [df = pd.read_csv(csv_filepath)] that
    [process_labeled_data] works on: its columns in order, each a name and
    its values.  The model takes the DataFrame as given, as [process_urls]
    takes the rows that [csv_read] returns: how pandas reads the file (blank
    lines skipped, empty cells read as NaN, numeric columns inferred,
    repeated names renamed) is not embedded, and the values are the [str]
    cells of a text column.  The column names of a DataFrame that
    [read_csv] returns are distinct. *)
Definition dataframe := list (string * list string).

(** [df[name].values]: KeyError for a name that is not a column. *)
Definition df_column (df : dataframe) (name : string) : py_result (list string) :=
  match find (fun c => String.eqb (fst c) name) df with
  | Some c => Ok (snd c)
  | None => Err (KeyError name)
  end.

(** [SQLArticleInterface.process_labeled_data]. *)
Definition process_labeled_data (d : db) (df : dataframe)
  (url_column_name label_column_name : string) : py_result db :=
  let! urls := df_column df url_column_name in
  let existing_urls := label_urls d in
  let urls := filter (fun u => negb (py_in u existing_urls)) urls in
  let! lbls := df_column df label_column_name in
  let values := map (fun p => [fst p; snd p]) (combine urls lbls) in
  let! rows := sql_insert_many labels_unique (labels d) values in
  Ok (mk_db (articles d) rows).

(** [SQLArticleInterface.get_training_data]: [SELECT content, category FROM
    Articles INNER JOIN Labels ON Articles.url = Labels.url], then
    [return labels, features]. *)
Definition inner_join (d : db) : list (string * string) :=
  flat_map (fun a => flat_map (fun l => if String.eqb (nth 1 a "") (nth 0 l "")
                                        then [(nth 5 a "", nth 1 l "")] else [])
                              (labels d))
           (articles d).

Definition get_training_data (d : db) : list string * list string :=
  let training_cases := inner_join d in
  let lbls := map snd training_cases in
  let features := map fst training_cases in
  (lbls, features).


Section SqlExport.

(** The SQLite engine on the database file: for one SQL statement, the
    column names ([cursor.description]) and the rows it returns, or the
    [sqlite3] exception it raises (OperationalError "no such table: ..."
    for a table the file does not have, and so on).  Which table names it
    resolves (any case, [main.Articles], [sqlite_master], ...) is SQLite's
    business and is left open. *)
Variable sqlite_query : db -> string -> py_result (list string * list sql_row).



End SqlExport.

(** ** [sample_urls] *)

(** [l[:k]] *)
Definition py_slice_to {A} (l : list A) (k : Z) : list A :=
  let n := Z.of_nat (length l) in
  if (0 <=? k)%Z then firstn (Z.to_nat k) l else firstn (Z.to_nat (n + k)) l.

(** The [size] argument of [sample_urls]: an [int], or a value that is
    neither an [int] nor a [float].  Float sizes go through floating-point
    arithmetic ([int(size * len(urls))]) and are not embedded. *)
Inductive size_arg : Type :=
| SizeInt (z : Z)
| SizeNotNumber.

(** The [random] argument: a [bool] or any other value. *)
Inductive random_arg : Type :=
| RandBool (b : bool)
| RandOther.

Section Sampling.

(** The generator behind [np.random.choice]: [rng k] is its [k]-th raw
    draw, reduced into [range(len(a))]. *)
Variable rng : nat -> nat.

(** [np.random.choice(a, n)] (with replacement): an empty [a] with a
    non-zero [n] raises first, then a negative [n]. *)
Definition np_random_choice (a : list string) (n : Z) : py_result (list string) :=
  if (Nat.eqb (length a) 0 && negb (n =? 0)%Z)%bool then
    Err (ValueError "'a' cannot be empty unless no samples are taken")
  else if (n <? 0)%Z then Err (ValueError "negative dimensions are not allowed")
  else Ok (map (fun k => nth (Nat.modulo (rng k) (length a)) a "") (seq 0 (Z.to_nat n))).

(** [sample_urls(urls, size, random)] *)
Definition sample_urls (urls : list string) (size : size_arg) (random : random_arg)
  : py_result (list string) :=
  let! sample_size :=
    match size with
    | SizeInt z =>
        if (z <=? Z.of_nat (length urls))%Z then Ok z
        else Err (ValueError "Sample size cannot be larger than the number of urls.")
    | SizeNotNumber =>
        Err (ValueError "Invalid sample size. Please specify required sample size as a float between 0.0 and 1.0 or as an integer.")
    end in
  let! randomize :=
    match random with
    | RandBool b => Ok b
    | RandOther => Err (ValueError "Invalid value for random. Please specify True or False.")
    end in
  if randomize then np_random_choice urls sample_size
  else Ok (py_slice_to urls sample_size).

End Sampling.

(** ** [csv2dict]: [csv.DictReader] over the rows of the file *)

(** Keys of a DictReader record: a field name, or [None] (the [restkey]
    under which the cells beyond the header are kept). *)
Inductive dict_key : Type :=
| KField (s : string)
| KNone.

(** Values: a cell, [None] (the [restval] of a missing cell), or the list
    of extra cells. *)
Inductive dict_val : Type :=
| VStr (s : string)
| VNone
| VList (l : list string).

Definition dict_key_eqb (k k' : dict_key) : bool :=
  match k, k' with
  | KField s, KField s' => String.eqb s s'
  | KNone, KNone => true
  | _, _ => false
  end.

(** A Python dict as an insertion-ordered association list. *)
Definition py_dict := list (dict_key * dict_val).

(** [d[k] = v]: overwrite in place, or append a new key. *)
Fixpoint dict_set (d : py_dict) (k : dict_key) (v : dict_val) : py_dict :=
  match d with
  | [] => [(k, v)]
  | (k', v') :: d' =>
      if dict_key_eqb k' k then (k', v) :: d' else (k', v') :: dict_set d' k v
  end.

Fixpoint dict_get (d : py_dict) (k : dict_key) : option dict_val :=
  match d with
  | [] => None
  | (k', v') :: d' => if dict_key_eqb k' k then Some v' else dict_get d' k
  end.

(** [dict(pairs)] *)
Definition dict_of_pairs (ps : list (dict_key * dict_val)) : py_dict :=
  fold_left (fun d p => dict_set d (fst p) (snd p)) ps [].

(** One record of [DictReader.__next__] for a non-blank row. *)
Definition dictreader_row (fieldnames row : list string) : py_dict :=
  let d := dict_of_pairs (combine (map KField fieldnames) (map VStr row)) in
  let lf := length fieldnames in
  let lr := length row in
  if Nat.ltb lf lr then dict_set d KNone (VList (skipn lf row))
  else if Nat.ltb lr lf then
    fold_left (fun d key => dict_set d (KField key) VNone) (skipn lr fieldnames) d
  else d.

(** [csv2dict(csvfile)] on a file with rows [ds]: the first row gives the
    field names, blank rows are skipped. *)
Definition csv2dict (ds : dataset) : list py_dict :=
  match ds with
  | [] => []
  | fieldnames :: rows =>
      map (dictreader_row fieldnames)
          (filter (fun r => match r with [] => false | _ => true end) rows)
  end.

(** ** Lemmas on the collect loop *)

(** The articles that [collect] stores: those returned by a finished future
    whose content is not the failure sentinel. *)
Definition stored_articles (fs : list scrape_result) : list article :=
  flat_map (fun f => match f with
                     | Got a => if String.eqb (art_content a) retrieval_failed then [] else [a]
                     | _ => []
                     end) fs.

Lemma insert_article_unconstrained (d : db) (a : article) :
  insert_article d a =
  Ok (if String.eqb (art_content a) retrieval_failed then d
      else mk_db (articles d ++ [article_row a])%list (labels d)).
Proof.
  unfold insert_article, sql_insert; simpl.
  destruct (String.eqb (art_content a) retrieval_failed); reflexivity.
Qed.

Lemma collect_stores (fs : list scrape_result) : forall d,
  collect d fs = mk_db (articles d ++ map article_row (stored_articles fs))%list (labels d).
Proof.
  induction fs as [|f fs IH]; intros d; simpl.
  - destruct d; simpl; rewrite app_nil_r; reflexivity.
  - rewrite IH. destruct f as [| |a]; simpl; try reflexivity.
    rewrite insert_article_unconstrained.
    destruct (String.eqb (art_content a) retrieval_failed); simpl; try reflexivity.
    rewrite <- app_assoc; reflexivity.
Qed.

Lemma stored_articles_perm (fs fs' : list scrape_result) :
  Permutation fs fs' -> Permutation (stored_articles fs) (stored_articles fs').
Proof. intros H; unfold stored_articles; apply Permutation_flat_map; exact H. Qed.

Lemma in_stored_articles (a : article) (fs : list scrape_result) :
  In a (stored_articles fs) <->
  In (Got a) fs /\ String.eqb (art_content a) retrieval_failed = false.
Proof.
  unfold stored_articles; rewrite in_flat_map; split.
  - intros [f [Hf Ha]]. destruct f as [| |b]; simpl in Ha; try contradiction.
    destruct (String.eqb (art_content b) retrieval_failed) eqn:E; simpl in Ha;
      [contradiction|].
    destruct Ha as [<-|[]]; auto.
  - intros [H E]. exists (Got a); split; [exact H|]. rewrite E; simpl; auto.
Qed.

Lemma py_in_In (u : string) (l : list string) : py_in u l = true <-> In u l.
Proof.
  unfold py_in; rewrite existsb_exists; split.
  - intros [x [Hx E]]; apply String.eqb_eq in E; subst; exact Hx.
  - intros H; exists u; split; [exact H | apply String.eqb_refl].
Qed.

(** ** Concrete inputs *)

Definition art_a : article :=
  mk_article "A" "http://a.com" ["Ann"] "2017-01-01" "a.com" "hello" "html" "en".

(** The DataFrame that [pd.read_csv] returns for the file with rows
    [[["URL"; "Tag"]; ["http://a.com"; "X"]; ["http://b.com"; "Y"]]]. *)
Definition labels_df : dataframe :=
  [("URL", ["http://a.com"; "http://b.com"]); ("Tag", ["X"; "Y"])].

Definition url_csv : dataset := [["URL"]; ["http://a.com"]].

(** A scrape collaborator that always answers with the article of another
    url (as after a redirect). *)
Definition scrape_elsewhere (u : string) (pdfs : bool) : scrape_result :=
  Got (mk_article "B" "http://b.com" [] "" "b.com" "body" "html" "en").


(** Five urls; the scrape of the third one raises. *)
Definition five_csv : dataset :=
  [["URL"]; ["http://1.com"]; ["http://2.com"]; ["http://3.com"]; ["http://4.com"]; ["http://5.com"]].

Definition scrape_one_fails (u : string) (pdfs : bool) : scrape_result :=
  if String.eqb u "http://3.com" then Raised
  else Got (mk_article "T" u [] "" "" ("text of " ++ u) "html" "en").

(** ** Claims *)

Module LabelIngest.

(** C1 (code_bug).  [process_labeled_data] filters the url column against
    the Labels table but zips the filtered urls with the unfiltered label
    column.  On an empty table the scenario of the spec holds; when
    "http://a.com" is already labelled, "http://b.com" is inserted with the
    category "X" of the row of "http://a.com" instead of its own "Y". *)
Theorem process_labeled_data_misaligned :
  process_labeled_data init_db labels_df "URL" "Tag"
  = Ok (mk_db [] [["http://a.com"; "X"]; ["http://b.com"; "Y"]]) /\
  process_labeled_data (mk_db [] [["http://a.com"; "Z"]]) labels_df "URL" "Tag"
  = Ok (mk_db [] [["http://a.com"; "Z"]; ["http://b.com"; "X"]]).
Proof. split; reflexivity. Qed.

End LabelIngest.

Module TrainingData.

(** C2 (code_bug).  [get_training_data] selects [content, category] but
    returns [labels, features]: on one article with content "hello" at
    "http://a.com" and the label ("http://a.com","X") it returns
    (["X"], ["hello"]), categories first. *)
Theorem get_training_data_categories_first :
  get_training_data (mk_db [article_row art_a] [["http://a.com"; "X"]])
  = (["X"], ["hello"]).
Proof. reflexivity. Qed.

End TrainingData.

Module InsertArticle.

(** C3.  An article whose content is the failure sentinel
    "retrieval_failed" is not inserted: [insert_article] returns without
    error and the store, hence the Articles table and its row count, is
    unchanged. *)
Theorem insert_article_sentinel_noop (d : db) (a : article) :
  art_content a = retrieval_failed -> insert_article d a = Ok d.
Proof.
  intros H. unfold insert_article. rewrite H, String.eqb_refl. reflexivity.
Qed.

Lemma insert_article_sentinel_noop_witness :
  insert_article (mk_db [article_row art_a] []) 
    (mk_article "F" "http://f.com" [] "" "f.com" "retrieval_failed" "html" "")
  = Ok (mk_db [article_row art_a] []).
Proof. apply insert_article_sentinel_noop. reflexivity. Defined.

(** C9 (code_bug).  The Articles table of [__init__] has no UNIQUE
    constraint on url, so inserting a second article with an already stored
    url raises no IntegrityError: it succeeds and the table then holds two
    rows for that url. *)
Theorem insert_article_duplicate_url :
  insert_article (mk_db [article_row art_a] []) art_a
  = Ok (mk_db [article_row art_a; article_row art_a] []) /\
  count_occ String.string_dec
    (article_urls (mk_db [article_row art_a; article_row art_a] [])) "http://a.com" = 2%nat.
Proof. split; reflexivity. Qed.

End InsertArticle.

Module UrlColumn.

Lemma py_index_one {A} (x y : A) (l : list A) : py_index (x :: y :: l) 1 = Ok y.
Proof.
  unfold py_index. cbn [length].
  replace ((0 <=? (if (1 <? 0)%Z then (Z.of_nat (S (S (length l))) + 1)%Z else 1%Z)) &&
           ((if (1 <? 0)%Z then (Z.of_nat (S (S (length l))) + 1)%Z else 1%Z)
              <? Z.of_nat (S (S (length l)))))%Z
    with true by (symmetry; simpl; apply Z.ltb_lt; lia).
  reflexivity.
Qed.

(** C7 (code_bug).  With [column] omitted, [urls_from_csv] indexes every
    row with the Python list [index] ([line[index]]), which raises
    TypeError: on every dataset with a row after the header the call
    raises, so a dataset whose header cell contains "http" never yields
    the values of that column. *)
Theorem urls_from_csv_no_column_type_error (r0 r1 : list string) (rest : dataset) :
  urls_from_csv (r0 :: r1 :: rest) ColNone 1 = Err TypeError /\
  urls_from_csv [["http_link"]; ["http://a.com"]] ColNone 1 <> Ok ["http://a.com"].
Proof.
  split; [|discriminate].
  unfold urls_from_csv. simpl column_truthy. cbv iota.
  rewrite py_index_one. simpl py_bind. reflexivity.
Qed.

(** C8 (code_bug).  [if column:] is false for the integer 0, so the
    column index 0 always raises ValueError("Can't find any URLs!"), even
    though 0 is a valid index into row 0. *)
Theorem urls_from_csv_index_zero_rejected (ds : dataset) (header : Z) :
  urls_from_csv ds (ColInt 0) header = Err (ValueError "Can't find any URLs!").
Proof. reflexivity. Qed.

End UrlColumn.

Module ExportTable.




End ExportTable.

Module FetchPipeline.

Lemma article_urls_collect (d : db) (fs : list scrape_result) :
  article_urls (collect d fs) =
  (article_urls d ++ map art_url (stored_articles fs))%list.
Proof.
  rewrite collect_stores. unfold article_urls; simpl.
  rewrite map_app, map_map. reflexivity.
Qed.

Lemma db_app_nil (d : db) : mk_db (articles d ++ [])%list (labels d) = d.
Proof. destruct d; simpl; rewrite app_nil_r; reflexivity. Qed.

(** C4.  A url already stored in the Articles table is never handed to the
    scrape collaborator by [process_urls], whatever the CSV and the
    collaborator: the dedup filter runs before any future is submitted. *)
Theorem process_urls_skips_stored
  (scrape : string -> bool -> scrape_result)
  (as_completed : list scrape_result -> list scrape_result)
  (d : db) (ds : dataset) (url_column : column_arg) (scrape_pdfs : bool) (u : string) :
  In u (article_urls d) ->
  ~ In u (fst (process_urls scrape as_completed d ds url_column scrape_pdfs)).
Proof.
  intros Hu. unfold process_urls.
  destruct (urls_from_csv ds url_column 1) as [urls|e]; simpl; [|tauto].
  rewrite filter_In. intros [_ Hf].
  rewrite (proj2 (py_in_In _ _) Hu) in Hf. discriminate.
Qed.

Lemma process_urls_skips_stored_witness :
  In "http://a.com" (article_urls (mk_db [article_row art_a] [])) /\
  ~ In "http://a.com"
      (fst (process_urls scrape_one_fails (fun fs => fs) (mk_db [article_row art_a] [])
              url_csv (ColStr "URL") true)).
Proof.
  split; [simpl; auto|].
  apply (process_urls_skips_stored scrape_one_fails (fun fs => fs)).
  simpl; auto.
Defined.

(** C6.  When the url column can be read, [process_urls] does not raise
    whatever the scrape collaborator does: a future whose scrape raised (or
    returned [None], or the failure sentinel) adds nothing, and every other
    submitted url adds its article; the Articles table grows by exactly
    these rows, in the completion order. *)
Theorem process_urls_contains_failures
  (scrape : string -> bool -> scrape_result)
  (as_completed : list scrape_result -> list scrape_result)
  (Hdone : forall fs, Permutation (as_completed fs) fs)
  (d : db) (ds : dataset) (url_column : column_arg) (scrape_pdfs : bool)
  (urls : list string) :
  urls_from_csv ds url_column 1 = Ok urls ->
  exists d',
    snd (process_urls scrape as_completed d ds url_column scrape_pdfs) = Ok d' /\
    labels d' = labels d /\
    Permutation (articles d')
      (articles d ++
       map article_row
         (stored_articles
            (map (fun u => scrape u scrape_pdfs)
                 (filter (fun u => negb (py_in u (article_urls d))) urls))))%list.
Proof.
  intros Hu. unfold process_urls. rewrite Hu; simpl.
  eexists; split; [reflexivity|].
  rewrite collect_stores; simpl; split; [reflexivity|].
  apply Permutation_app_head, Permutation_map, stored_articles_perm, Hdone.
Qed.

Lemma process_urls_contains_failures_witness :
  urls_from_csv five_csv (ColStr "URL") 1
  = Ok ["http://1.com"; "http://2.com"; "http://3.com"; "http://4.com"; "http://5.com"] /\
  exists d',
    snd (process_urls scrape_one_fails (@rev scrape_result) init_db five_csv (ColStr "URL") true)
    = Ok d' /\
    labels d' = labels init_db /\
    Permutation (articles d')
      (articles init_db ++
       map article_row
         (stored_articles
            (map (fun u => scrape_one_fails u true)
                 (filter (fun u => negb (py_in u (article_urls init_db)))
                    ["http://1.com"; "http://2.com"; "http://3.com"; "http://4.com"; "http://5.com"]))))%list.
Proof.
  split; [reflexivity|].
  apply (process_urls_contains_failures scrape_one_fails (@rev scrape_result)
           (fun fs => Permutation_sym (Permutation_rev fs))).
  reflexivity.
Defined.

Example five_urls_one_raises :
  option_map (fun d => length (articles d))
    (match snd (process_urls scrape_one_fails (@rev scrape_result) init_db five_csv
                  (ColStr "URL") true) with
     | Ok d => Some d
     | Err _ => None
     end) = Some 4%nat.
Proof. reflexivity. Qed.

(** C5 (code_bug).  A deterministic collaborator that answers every url
    with the article of "http://b.com" (as after a redirect): the first run
    stores one row, and the second run, finding "http://a.com" still absent
    from the url column, stores a second row for "http://b.com", since the
    Articles table of [__init__] has no UNIQUE constraint on url.  Under
    such a constraint (column 1) that second insert would raise the
    IntegrityError that [insert_article] expects, and the row count would
    stay 1. *)
Lemma process_urls_rerun_grows :
  snd (process_urls scrape_elsewhere (fun fs => fs) init_db url_csv (ColStr "URL") true)
  = Ok (mk_db [article_row (mk_article "B" "http://b.com" [] "" "b.com" "body" "html" "en")] []) /\
  snd (process_urls scrape_elsewhere (fun fs => fs)
         (mk_db [article_row (mk_article "B" "http://b.com" [] "" "b.com" "body" "html" "en")] [])
         url_csv (ColStr "URL") true)
  = Ok (mk_db [article_row (mk_article "B" "http://b.com" [] "" "b.com" "body" "html" "en");
               article_row (mk_article "B" "http://b.com" [] "" "b.com" "body" "html" "en")] []) /\
  sql_insert [1%nat] [article_row (mk_article "B" "http://b.com" [] "" "b.com" "body" "html" "en")]
    (article_row (mk_article "B" "http://b.com" [] "" "b.com" "body" "html" "en"))
  = Err IntegrityError.
Proof. split; [|split]; reflexivity. Qed.

(** For a deterministic collaborator whose articles carry the url they
    were scraped from, a second [process_urls] run on the same
    CSV right after a successful first run leaves the store unchanged, so
    the Articles row count is that of the first run. *)
Theorem process_urls_rerun_noop
  (scrape : string -> bool -> scrape_result)
  (as_completed : list scrape_result -> list scrape_result)
  (Hdone : forall fs, Permutation (as_completed fs) fs)
  (Hurl : forall u pdfs a, scrape u pdfs = Got a -> art_url a = u)
  (d d1 : db) (ds : dataset) (url_column : column_arg) (scrape_pdfs : bool) :
  snd (process_urls scrape as_completed d ds url_column scrape_pdfs) = Ok d1 ->
  snd (process_urls scrape as_completed d1 ds url_column scrape_pdfs) = Ok d1.
Proof.
  unfold process_urls.
  destruct (urls_from_csv ds url_column 1) as [urls|e]; simpl; [|discriminate].
  intros H; injection H as Hd1.
  set (F1 := filter (fun u => negb (py_in u (article_urls d))) urls) in Hd1.
  set (F2 := filter (fun u => negb (py_in u (article_urls d1))) urls).
  assert (Hnone : stored_articles (as_completed (map (fun u => scrape u scrape_pdfs) F2)) = []).
  { destruct (stored_articles (as_completed (map (fun u => scrape u scrape_pdfs) F2)))
      as [|a rest] eqn:E; [reflexivity|exfalso].
    assert (Ha : In a (stored_articles (as_completed (map (fun u => scrape u scrape_pdfs) F2))))
      by (rewrite E; left; reflexivity).
    apply in_stored_articles in Ha as [Hin Hc].
    apply (Permutation_in _ (Hdone _)) in Hin.
    apply in_map_iff in Hin as [u [Hs Hu2]].
    unfold F2 in Hu2; apply filter_In in Hu2 as [Hu Hnot].
    apply negb_true_iff in Hnot.
    assert (Hurl_u : art_url a = u) by (apply (Hurl u scrape_pdfs); exact Hs).
    assert (Hin1 : In u (article_urls d1)).
    { rewrite <- Hd1, article_urls_collect. apply in_or_app.
      destruct (py_in u (article_urls d)) eqn:Hold.
      - left; apply py_in_In; exact Hold.
      - right. rewrite <- Hurl_u. apply in_map, in_stored_articles; split; [|exact Hc].
        apply (Permutation_in _ (Permutation_sym (Hdone _))).
        apply in_map_iff; exists u; split; [exact Hs|].
        unfold F1; apply filter_In; split; [exact Hu|].
        rewrite Hold; reflexivity. }
    apply py_in_In in Hin1. rewrite Hin1 in Hnot. discriminate. }
  rewrite collect_stores, Hnone; simpl. rewrite db_app_nil. reflexivity.
Qed.

Lemma process_urls_rerun_noop_witness :
  snd (process_urls scrape_one_fails (fun fs => fs) init_db five_csv (ColStr "URL") true)
  = Ok (collect init_db (map (fun u => scrape_one_fails u true)
          ["http://1.com"; "http://2.com"; "http://3.com"; "http://4.com"; "http://5.com"])) /\
  snd (process_urls scrape_one_fails (fun fs => fs)
         (collect init_db (map (fun u => scrape_one_fails u true)
            ["http://1.com"; "http://2.com"; "http://3.com"; "http://4.com"; "http://5.com"]))
         five_csv (ColStr "URL") true)
  = Ok (collect init_db (map (fun u => scrape_one_fails u true)
          ["http://1.com"; "http://2.com"; "http://3.com"; "http://4.com"; "http://5.com"])).
Proof.
  assert (H1 : snd (process_urls scrape_one_fails (fun fs => fs) init_db five_csv (ColStr "URL") true)
    = Ok (collect init_db (map (fun u => scrape_one_fails u true)
          ["http://1.com"; "http://2.com"; "http://3.com"; "http://4.com"; "http://5.com"])))
    by reflexivity.
  split; [exact H1|].
  apply (process_urls_rerun_noop scrape_one_fails (fun fs => fs)
           (fun fs => Permutation_refl fs)) with (d := init_db); [|exact H1].
  intros u pdfs a Hs. unfold scrape_one_fails in Hs.
  destruct (String.eqb u "http://3.com"); [discriminate|].
  injection Hs as <-. reflexivity.
Defined.

End FetchPipeline.

(** ** Further properties of the code *)

Module CsvExtras.

Lemma py_index_nat (l : list string) (i : nat) :
  (i < length l)%nat -> py_index l (Z.of_nat i) = Ok (nth i l "").
Proof.
  intros H. unfold py_index.
  replace (Z.of_nat i <? 0)%Z with false by (symmetry; apply Z.ltb_ge; lia).
  replace ((0 <=? Z.of_nat i) && (Z.of_nat i <? Z.of_nat (length l)))%Z with true
    by (symmetry; apply andb_true_iff; split; [apply Z.leb_le | apply Z.ltb_lt]; lia).
  rewrite Nat2Z.id. rewrite (nth_error_nth' l "" H). reflexivity.
Qed.

Lemma py_index_nat_short (l : list string) (i : nat) :
  (length l <= i)%nat -> py_index l (Z.of_nat i) = Err IndexError.
Proof.
  intros H. unfold py_index.
  replace (Z.of_nat i <? 0)%Z with false by (symmetry; apply Z.ltb_ge; lia).
  replace ((0 <=? Z.of_nat i) && (Z.of_nat i <? Z.of_nat (length l)))%Z with false
    by (symmetry; apply andb_false_iff; right; apply Z.ltb_ge; lia).
  reflexivity.
Qed.

Lemma py_index_neg (l : list string) (k : nat) :
  (1 <= k <= length l)%nat -> py_index l (- Z.of_nat k) = Ok (nth (length l - k) l "").
Proof.
  intros H. unfold py_index.
  replace (- Z.of_nat k <? 0)%Z with true by (symmetry; apply Z.ltb_lt; lia).
  replace ((0 <=? Z.of_nat (length l) + - Z.of_nat k) &&
           (Z.of_nat (length l) + - Z.of_nat k <? Z.of_nat (length l)))%Z with true
    by (symmetry; apply andb_true_iff; split; [apply Z.leb_le | apply Z.ltb_lt]; lia).
  replace (Z.to_nat (Z.of_nat (length l) + - Z.of_nat k)) with (length l - k)%nat by lia.
  rewrite (nth_error_nth' l "" (n := (length l - k)%nat)) by lia. reflexivity.
Qed.

Lemma py_map_all_ok {A B} (f : A -> py_result B) (g : A -> B) (l : list A) :
  (forall x, In x l -> f x = Ok (g x)) -> py_map f l = Ok (map g l).
Proof.
  induction l as [|x xs IH]; intros H; simpl; [reflexivity|].
  rewrite (H x (or_introl eq_refl)); simpl.
  rewrite IH by (intros y Hy; apply H; right; exact Hy). reflexivity.
Qed.

Lemma py_map_one_err {A B} (f : A -> py_result B) (e : py_error) (l : list A) :
  (forall x, In x l -> (exists y, f x = Ok y) \/ f x = Err e) ->
  (exists x, In x l /\ f x = Err e) -> py_map f l = Err e.
Proof.
  induction l as [|x xs IH]; intros Hall [z [Hz Hfz]]; [destruct Hz|].
  simpl. destruct (Hall x (or_introl eq_refl)) as [[y Hy]|Hx].
  - rewrite Hy; simpl. destruct Hz as [<-|Hz]; [congruence|].
    rewrite IH; [reflexivity| |exists z; auto].
    intros w Hw; apply Hall; right; exact Hw.
  - rewrite Hx; reflexivity.
Qed.

Lemma py_index_head {A} (x : A) (l : list A) : py_index (x :: l) 0 = Ok x.
Proof. reflexivity. Qed.

Lemma py_list_index_in (s : string) (l : list string) (i : nat) :
  py_list_index s l = Some i -> py_in s l = true.
Proof.
  revert i; induction l as [|y ys IH]; intros i H; simpl in *; [discriminate|].
  destruct (String.eqb s y) eqn:E; [reflexivity|].
  destruct (py_list_index s ys) as [j|] eqn:E2; [|discriminate].
  apply (IH j); reflexivity.
Qed.

Lemma py_list_index_lt (s : string) (l : list string) (i : nat) :
  py_list_index s l = Some i -> (i < length l)%nat.
Proof.
  revert i; induction l as [|y ys IH]; intros i H; simpl in *; [discriminate|].
  destruct (String.eqb s y); [injection H as <-; lia|].
  destruct (py_list_index s ys) as [j|] eqn:E2; [|discriminate].
  injection H as <-. specialize (IH j eq_refl). lia.
Qed.

Lemma truthy_str (s : string) : s <> "" -> column_truthy (ColStr s) = true.
Proof. intros H; simpl; apply String.eqb_neq in H; rewrite H; reflexivity. Qed.

(** [urls_from_csv] with a non-empty column name present in the header row
    (and the default [header = 1]) returns, for every row after the header, its cell
    at the first position of that name in the header. *)
Theorem urls_from_csv_by_name (row0 : list string) (rest : dataset) (s : string) (i : nat) :
  s <> "" -> py_list_index s row0 = Some i ->
  (forall r, In r rest -> (i < length r)%nat) ->
  urls_from_csv (row0 :: rest) (ColStr s) 1 = Ok (map (fun r => nth i r "") rest).
Proof.
  intros Hs Hi Hrest. unfold urls_from_csv. rewrite truthy_str by exact Hs.
  simpl Z.eqb; cbv iota.
  rewrite py_index_head; simpl py_bind.
  rewrite (py_list_index_in _ _ _ Hi), Hi.
  apply py_map_all_ok. intros r Hr. apply py_index_nat, Hrest, Hr.
Qed.

Lemma urls_from_csv_by_name_witness :
  urls_from_csv [["x"; "URL"]; ["1"; "http://a.com"]; ["2"; "http://b.com"]] (ColStr "URL") 1
  = Ok (map (fun r => nth 1 r "") [["1"; "http://a.com"]; ["2"; "http://b.com"]]).
Proof.
  apply (urls_from_csv_by_name ["x"; "URL"] _ "URL" 1).
  - discriminate.
  - reflexivity.
  - intros r Hr; simpl in Hr; decompose sum Hr; subst; simpl; lia.
Defined.

(** The empty column name is falsy at [if column:] and always raises
    ValueError("Can't find any URLs!").  A non-empty column name fails: with
    [header = 0] always (ValueError "No header present"); with
    [header = 1], by ValueError when the header row lacks the name and by
    IndexError on an empty dataset. *)
Theorem urls_from_csv_name_errors (s : string) (ds : dataset) (row0 : list string) (rest : dataset) :
  s <> "" ->
  (forall ds' h, urls_from_csv ds' (ColStr "") h = Err (ValueError "Can't find any URLs!")) /\
  urls_from_csv ds (ColStr s) 0 =
    Err (ValueError "Invalid use of column name.No header present in dataset.") /\
  (py_in s row0 = false ->
   urls_from_csv (row0 :: rest) (ColStr s) 1 =
     Err (ValueError "Invalid column name.Column name specified not in dataset.Please use a valid column name.")) /\
  urls_from_csv [] (ColStr s) 1 = Err IndexError.
Proof.
  intros Hs. split; [intros ds' h; reflexivity|].
  unfold urls_from_csv. rewrite truthy_str by exact Hs.
  split; [reflexivity|]. split; [|reflexivity].
  intros Hin. simpl Z.eqb; cbv iota.
  rewrite py_index_head; simpl py_bind.
  rewrite Hin. reflexivity.
Qed.

Lemma urls_from_csv_name_errors_witness :
  (forall ds' h, urls_from_csv ds' (ColStr "") h = Err (ValueError "Can't find any URLs!")) /\
  urls_from_csv [["a"]] (ColStr "URL") 0 =
    Err (ValueError "Invalid use of column name.No header present in dataset.") /\
  (py_in "URL" ["a"] = false ->
   urls_from_csv [["a"]; ["b"]] (ColStr "URL") 1 =
     Err (ValueError "Invalid column name.Column name specified not in dataset.Please use a valid column name.")) /\
  urls_from_csv [] (ColStr "URL") 1 = Err IndexError.
Proof. apply (urls_from_csv_name_errors "URL" [["a"]] ["a"] [["b"]]). discriminate. Defined.

Lemma truthy_int (c : Z) : c <> 0%Z -> column_truthy (ColInt c) = true.
Proof. intros H; simpl; apply Z.eqb_neq in H; rewrite H; reflexivity. Qed.

(** A positive column index below the width of row 0 returns, for every row
    after the header, its cell at that index. *)
Theorem urls_from_csv_by_index (row0 : list string) (rest : dataset) (c : nat) :
  (0 < c < length row0)%nat ->
  (forall r, In r rest -> (c < length r)%nat) ->
  urls_from_csv (row0 :: rest) (ColInt (Z.of_nat c)) 1 = Ok (map (fun r => nth c r "") rest).
Proof.
  intros Hc Hrest. unfold urls_from_csv. rewrite truthy_int by lia.
  rewrite py_index_head; simpl py_bind.
  replace (Z.of_nat c <? Z.of_nat (length row0))%Z with true by (symmetry; apply Z.ltb_lt; lia).
  apply py_map_all_ok. intros r Hr. apply py_index_nat, Hrest, Hr.
Qed.

Lemma urls_from_csv_by_index_witness :
  urls_from_csv [["x"; "URL"]; ["1"; "http://a.com"]] (ColInt (Z.of_nat 1)) 1
  = Ok (map (fun r => nth 1 r "") [["1"; "http://a.com"]]).
Proof.
  apply urls_from_csv_by_index; [simpl; lia|].
  intros r Hr; simpl in Hr; destruct Hr as [<-|[]]; simpl; lia.
Defined.

(** A non-zero column index at or beyond the width of row 0 raises the
    "Column index not in range" ValueError, whatever the header offset; an
    index within row 0 that some later row is too short for raises
    IndexError. *)
Theorem urls_from_csv_index_errors (row0 : list string) (rest : dataset) (c : nat) (header : Z) :
  (0 < c)%nat ->
  ((length row0 <= c)%nat ->
   urls_from_csv (row0 :: rest) (ColInt (Z.of_nat c)) header =
     Err (ValueError "Column index not in range of dataset.Please choose a valid column index.")) /\
  ((c < length row0)%nat -> (exists r, In r rest /\ (length r <= c)%nat) ->
   urls_from_csv (row0 :: rest) (ColInt (Z.of_nat c)) 1 = Err IndexError).
Proof.
  intros Hc. unfold urls_from_csv. rewrite truthy_int by lia.
  rewrite py_index_head; simpl py_bind. split.
  - intros Hw.
    replace (Z.of_nat c <? Z.of_nat (length row0))%Z with false by (symmetry; apply Z.ltb_ge; lia).
    reflexivity.
  - intros Hw [r [Hr Hshort]].
    replace (Z.of_nat c <? Z.of_nat (length row0))%Z with true by (symmetry; apply Z.ltb_lt; lia).
    apply py_map_one_err.
    + intros x _. destruct (Nat.lt_ge_cases c (length x)) as [Hlt|Hge].
      * left; exists (nth c x ""); apply py_index_nat; exact Hlt.
      * right; apply py_index_nat_short; exact Hge.
    + exists r; split; [exact Hr | apply py_index_nat_short; exact Hshort].
Qed.

Lemma urls_from_csv_index_errors_witness :
  ((length ["URL"] <= 2)%nat ->
   urls_from_csv [["URL"]; ["http://a.com"]] (ColInt (Z.of_nat 2)) 1 =
     Err (ValueError "Column index not in range of dataset.Please choose a valid column index.")) /\
  ((2 < length ["x"; "y"; "URL"])%nat ->
   (exists r, In r [["1"; "2"; "http://a.com"]; ["1"]] /\ (length r <= 2)%nat) ->
   urls_from_csv [["x"; "y"; "URL"]; ["1"; "2"; "http://a.com"]; ["1"]] (ColInt (Z.of_nat 2)) 1
   = Err IndexError).
Proof.
  split.
  - apply (urls_from_csv_index_errors ["URL"] [["http://a.com"]] 2 1); lia.
  - apply (urls_from_csv_index_errors ["x"; "y"; "URL"] [["1"; "2"; "http://a.com"]; ["1"]] 2 1); lia.
Defined.

(** A negative column index [-k] passes the range check against row 0 and
    reads, in every row after the header, the [k]-th cell from that row's
    own end. *)
Theorem urls_from_csv_negative_index (row0 : list string) (rest : dataset) (k : nat) :
  (1 <= k)%nat ->
  (forall r, In r rest -> (k <= length r)%nat) ->
  urls_from_csv (row0 :: rest) (ColInt (- Z.of_nat k)) 1 =
    Ok (map (fun r => nth (length r - k) r "") rest).
Proof.
  intros Hk Hrest. unfold urls_from_csv. rewrite truthy_int by lia.
  rewrite py_index_head; simpl py_bind.
  replace (- Z.of_nat k <? Z.of_nat (length row0))%Z with true by (symmetry; apply Z.ltb_lt; lia).
  apply py_map_all_ok. intros r Hr. apply py_index_neg. specialize (Hrest r Hr). lia.
Qed.

Lemma urls_from_csv_negative_index_witness :
  urls_from_csv [["URL"; "x"]; ["http://a.com"; "1"]; ["http://b.com"]] (ColInt (- Z.of_nat 1)) 1
  = Ok (map (fun r => nth (length r - 1) r "") [["http://a.com"; "1"]; ["http://b.com"]]).
Proof.
  apply urls_from_csv_negative_index; [lia|].
  intros r Hr; simpl in Hr; decompose sum Hr; subst; simpl; lia.
Defined.

End CsvExtras.

Module StoreExtras.

Definition width8 (rows : list sql_row) : Prop := Forall (fun r => length r = 8%nat) rows.

Lemma article_row_width (a : article) : length (article_row a) = 8%nat.
Proof. reflexivity. Qed.

Lemma update_row_url (r : sql_row) (lang : string) :
  length r = 8%nat -> nth 1 (firstn 7 r ++ [lang] ++ skipn 8 r)%list "" = nth 1 r "".
Proof.
  intros H. do 8 (destruct r as [|? r]; [discriminate|]). reflexivity.
Qed.

Lemma update_row_width (r : sql_row) (lang : string) :
  length r = 8%nat -> length (firstn 7 r ++ [lang] ++ skipn 8 r)%list = 8%nat.
Proof.
  intros H. do 8 (destruct r as [|? r]; [discriminate|]).
  destruct r; [reflexivity|discriminate].
Qed.

Lemma update_rows_absent (rows : list sql_row) (a : article) :
  ~ In (art_url a) (map (fun r => nth 1 r "") rows) ->
  map (fun r => if String.eqb (nth 1 r "") (art_url a)
                then (firstn 7 r ++ [art_language a] ++ skipn 8 r)%list else r) rows = rows.
Proof.
  induction rows as [|r rows IH]; intros H; cbn [map]; [reflexivity|].
  cbn [map In] in H. destruct (String.eqb (nth 1 r "") (art_url a)) eqn:E.
  - apply String.eqb_eq in E. exfalso; apply H; left; exact E.
  - rewrite IH; [reflexivity|]. intros Hin; apply H; right; exact Hin.
Qed.

(** A non-sentinel article is always stored: [insert_article] appends its
    row (authors joined with ",") at the end of the Articles table, even
    when its url is already there, and [SELECT url] then ends with its
    url. *)
Theorem insert_article_appends (d : db) (a : article) :
  art_content a <> retrieval_failed ->
  insert_article d a = Ok (mk_db (articles d ++ [article_row a])%list (labels d)) /\
  article_urls (mk_db (articles d ++ [article_row a])%list (labels d)) =
    (article_urls d ++ [art_url a])%list.
Proof.
  intros H. split.
  - rewrite insert_article_unconstrained. apply String.eqb_neq in H. rewrite H. reflexivity.
  - unfold article_urls; simpl. rewrite map_app. reflexivity.
Qed.

Lemma insert_article_appends_witness :
  insert_article init_db art_a = Ok (mk_db (articles init_db ++ [article_row art_a])%list (labels init_db)) /\
  article_urls (mk_db (articles init_db ++ [article_row art_a])%list (labels init_db)) =
    (article_urls init_db ++ [art_url art_a])%list.
Proof. apply insert_article_appends. discriminate. Defined.

(** [update_article] on a table of 8-column rows never raises, keeps the
    Labels table, the number of rows and the url column; in each row whose
    url is the article's it sets the language column and leaves every other
    column as it was, and other rows are unchanged. *)
Theorem update_article_sets_language (d : db) (a : article) :
  width8 (articles d) ->
  exists d', update_article d a = Ok d' /\
    labels d' = labels d /\
    article_urls d' = article_urls d /\
    width8 (articles d') /\
    length (articles d') = length (articles d) /\
    forall i r, nth_error (articles d) i = Some r ->
      exists r', nth_error (articles d') i = Some r' /\
        nth 7 r' "" = (if String.eqb (nth 1 r "") (art_url a) then art_language a else nth 7 r "") /\
        (forall j, j <> 7%nat -> nth j r' "" = nth j r "").
Proof.
  intros Hw. eexists; split; [reflexivity|]. cbn [articles labels].
  split; [reflexivity|]. split; [|split; [|split]].
  - unfold article_urls; cbn [articles]. rewrite map_map. apply map_ext_in.
    intros r Hr. unfold width8 in Hw; rewrite Forall_forall in Hw. specialize (Hw r Hr).
    destruct (String.eqb (nth 1 r "") (art_url a)); [apply update_row_url; exact Hw|reflexivity].
  - unfold width8 in *. rewrite Forall_map. eapply Forall_impl; [|exact Hw].
    intros r Hr. destruct (String.eqb (nth 1 r "") (art_url a)); [apply update_row_width|]; exact Hr.
  - apply length_map.
  - intros i r Hi. unfold sql_row in *. rewrite nth_error_map, Hi. eexists; split; [reflexivity|].
    pose proof (nth_error_In _ _ Hi) as Hin. unfold width8 in Hw; rewrite Forall_forall in Hw.
    specialize (Hw r Hin).
    do 8 (destruct r as [|? r]; [discriminate|]). destruct r; [|discriminate].
    simpl. destruct (String.eqb _ (art_url a)); split; try reflexivity;
      intros j Hj; do 7 (destruct j as [|j]; [reflexivity|]); destruct j as [|j]; [contradiction|];
      destruct j; reflexivity.
Qed.

Lemma update_article_sets_language_witness :
  exists d', update_article (mk_db [article_row art_a] []) art_a = Ok d' /\
    labels d' = labels (mk_db [article_row art_a] []) /\
    article_urls d' = article_urls (mk_db [article_row art_a] []) /\
    width8 (articles d') /\
    length (articles d') = length (articles (mk_db [article_row art_a] [])) /\
    forall i r, nth_error (articles (mk_db [article_row art_a] [])) i = Some r ->
      exists r', nth_error (articles d') i = Some r' /\
        nth 7 r' "" = (if String.eqb (nth 1 r "") (art_url art_a) then art_language art_a else nth 7 r "") /\
        (forall j, j <> 7%nat -> nth j r' "" = nth j r "").
Proof.
  apply update_article_sets_language. unfold width8; simpl. repeat constructor.
Defined.

(** [update_article] for a url with no row in Articles changes nothing. *)
Theorem update_article_absent_noop (d : db) (a : article) :
  ~ In (art_url a) (article_urls d) -> update_article d a = Ok d.
Proof.
  intros H. unfold update_article. rewrite update_rows_absent by exact H.
  destruct d; reflexivity.
Qed.

Lemma update_article_absent_noop_witness :
  update_article (mk_db [article_row art_a] []) (mk_article "" "http://z.com" [] "" "" "" "" "fr")
  = Ok (mk_db [article_row art_a] []).
Proof. apply update_article_absent_noop. simpl. intros [H|[]]; discriminate. Defined.

(** Inserting a non-sentinel article with a new url and then updating with
    an article of the same url leaves the table with one new row: the first
    article's fields with the second one's language. *)
Theorem insert_then_update (d : db) (a b : article) :
  art_content a <> retrieval_failed ->
  ~ In (art_url a) (article_urls d) ->
  art_url b = art_url a ->
  py_bind (insert_article d a) (fun d1 => update_article d1 b) =
  Ok (mk_db (articles d ++
             [article_row (mk_article (art_title a) (art_url a) (art_authors a) (art_pub_date a)
                             (art_domain a) (art_content a) (art_content_type a)
                             (art_language b))])%list
            (labels d)).
Proof.
  intros Hc Hnew Hb. rewrite insert_article_unconstrained.
  apply String.eqb_neq in Hc. rewrite Hc. simpl. unfold update_article; simpl.
  rewrite map_app. rewrite update_rows_absent by (rewrite Hb; exact Hnew).
  simpl. rewrite Hb, String.eqb_refl. reflexivity.
Qed.

Lemma insert_then_update_witness :
  py_bind (insert_article init_db art_a)
    (fun d1 => update_article d1 (mk_article "" "http://a.com" [] "" "" "" "" "fr")) =
  Ok (mk_db (articles init_db ++
             [article_row (mk_article (art_title art_a) (art_url art_a) (art_authors art_a)
                             (art_pub_date art_a) (art_domain art_a) (art_content art_a)
                             (art_content_type art_a) (art_language (mk_article "" "http://a.com" [] "" "" "" "" "fr")))])%list
            (labels init_db)).
Proof.
  apply insert_then_update; [discriminate | simpl; tauto | reflexivity].
Defined.

End StoreExtras.

Module LabelExtras.

Lemma sql_insert_many_free (rows rs : list sql_row) :
  sql_insert_many [] rows rs = Ok (rows ++ rs)%list.
Proof.
  revert rows; induction rs as [|r rs IH]; intros rows; simpl.
  - rewrite app_nil_r; reflexivity.
  - rewrite IH, <- app_assoc; reflexivity.
Qed.

Lemma filter_keep_all {A} (f : A -> bool) (l : list A) :
  (forall x, In x l -> f x = true) -> filter f l = l.
Proof.
  induction l as [|x xs IH]; intros H; simpl; [reflexivity|].
  rewrite (H x (or_introl eq_refl)), IH; [reflexivity|].
  intros y Hy; apply H; right; exact Hy.
Qed.

Lemma combine_maps {A B C} (f : A -> B) (g : A -> C) (l : list A) :
  combine (map f l) (map g l) = map (fun x => (f x, g x)) l.
Proof. induction l as [|x xs IH]; simpl; [reflexivity|]. rewrite IH; reflexivity. Qed.

Lemma combine_fst_short {A B} (l : list A) (m : list B) :
  (length l <= length m)%nat ->
  map fst (combine l m) = l /\ map snd (combine l m) = firstn (length l) m.
Proof.
  revert m; induction l as [|x xs IH]; intros m H; simpl; [auto|].
  destruct m as [|y ys]; simpl in H; [lia|]. simpl.
  destruct (IH ys) as [H1 H2]; [lia|]. rewrite H1, H2. auto.
Qed.

Lemma df_column_absent (df : dataframe) (name : string) :
  ~ In name (map fst df) -> df_column df name = Err (KeyError name).
Proof.
  intros H. unfold df_column.
  induction df as [|[n vs] df IH]; simpl in *; [reflexivity|].
  destruct (String.eqb n name) eqn:E.
  - apply String.eqb_eq in E. exfalso; apply H; left; exact E.
  - apply IH. intros Hin; apply H; right; exact Hin.
Qed.

Lemma df_column_present (df : dataframe) (name : string) :
  In name (map fst df) -> exists vs, df_column df name = Ok vs.
Proof.
  intros H. unfold df_column.
  induction df as [|[n vs] df IH]; simpl in *; [destruct H|].
  destruct (String.eqb n name) eqn:E; [eexists; reflexivity|].
  apply IH. destruct H as [H|H]; [|exact H].
  subst; rewrite String.eqb_refl in E; discriminate.
Qed.

Lemma length_combine_eq {A B} (l : list A) (m : list B) :
  length m = length l -> length (combine l m) = length l.
Proof. intros H. rewrite length_combine, H. apply Nat.min_id. Qed.

Lemma nth_pair_rows (l m : list string) (k : nat) :
  length m = length l -> (k < length l)%nat ->
  nth k (map (fun p : string * string => [fst p; snd p]) (combine l m)) [] =
  [nth k l ""; nth k m ""].
Proof.
  revert m k; induction l as [|x l IH]; intros m k Hlen Hk; simpl in Hk; [lia|].
  destruct m as [|y m]; simpl in Hlen; [discriminate|].
  destruct k as [|k]; simpl; [reflexivity|]. apply IH; lia.
Qed.

(** When no url of the url column is already in Labels,
    [process_labeled_data] appends, in DataFrame order, one row per url,
    pairing the [k]-th url with the [k]-th category (the categories of the
    same DataFrame rows). *)
Theorem process_labeled_data_fresh (d : db) (df : dataframe) (ucol lcol : string)
  (urls cats : list string) :
  df_column df ucol = Ok urls -> df_column df lcol = Ok cats ->
  length cats = length urls ->
  (forall u, In u urls -> ~ In u (label_urls d)) ->
  exists rs,
    process_labeled_data d df ucol lcol = Ok (mk_db (articles d) (labels d ++ rs)%list) /\
    length rs = length urls /\
    forall k, (k < length urls)%nat -> nth k rs [] = [nth k urls ""; nth k cats ""].
Proof.
  intros Hu Hl Hlen Hnew. unfold process_labeled_data. rewrite Hu; simpl py_bind.
  rewrite Hl; simpl py_bind.
  rewrite filter_keep_all.
  - unfold labels_unique. rewrite sql_insert_many_free.
    eexists; split; [reflexivity|]. split.
    + rewrite length_map. apply length_combine_eq, Hlen.
    + intros k Hk.
      apply nth_pair_rows; assumption.
  - intros u Hu'. destruct (py_in u (label_urls d)) eqn:E; [|reflexivity].
    exfalso; apply (Hnew u Hu'), py_in_In, E.
Qed.

Lemma process_labeled_data_fresh_witness :
  exists rs,
    process_labeled_data init_db labels_df "URL" "Tag"
    = Ok (mk_db (articles init_db) (labels init_db ++ rs)%list) /\
    length rs = length ["http://a.com"; "http://b.com"] /\
    forall k, (k < length ["http://a.com"; "http://b.com"])%nat ->
      nth k rs [] = [nth k ["http://a.com"; "http://b.com"] ""; nth k ["X"; "Y"] ""].
Proof.
  apply (process_labeled_data_fresh init_db labels_df "URL" "Tag"
           ["http://a.com"; "http://b.com"] ["X"; "Y"]);
    [reflexivity | reflexivity | reflexivity | intros u _ []].
Defined.

(** In general [process_labeled_data] appends rows whose urls are the urls
    of the url column not already in Labels (in order, repeats kept) and
    whose categories are the first that many entries of the category
    column, read from the top whatever urls were dropped; earlier rows and
    the Articles table are kept. *)
Theorem process_labeled_data_rows (d : db) (df : dataframe) (ucol lcol : string)
  (urls cats : list string) :
  df_column df ucol = Ok urls -> df_column df lcol = Ok cats ->
  length cats = length urls ->
  let kept := filter (fun u => negb (py_in u (label_urls d))) urls in
  exists rs,
    process_labeled_data d df ucol lcol = Ok (mk_db (articles d) (labels d ++ rs)%list) /\
    map (fun r => nth 0 r "") rs = kept /\
    map (fun r => nth 1 r "") rs = firstn (length kept) cats.
Proof.
  intros Hu Hl Hlen kept. unfold process_labeled_data. rewrite Hu; simpl py_bind.
  rewrite Hl; simpl py_bind.
  unfold labels_unique. rewrite sql_insert_many_free.
  eexists; split; [reflexivity|].
  assert (Hk : (length kept <= length cats)%nat).
  { unfold kept. rewrite Hlen. apply filter_length_le. }
  destruct (combine_fst_short _ _ Hk) as [H1 H2].
  rewrite !map_map. simpl. split; [exact H1 | exact H2].
Qed.

Lemma process_labeled_data_rows_witness :
  let kept := filter (fun u => negb (py_in u (label_urls (mk_db [] [["http://a.com"; "Z"]]))))
                ["http://a.com"; "http://b.com"] in
  exists rs,
    process_labeled_data (mk_db [] [["http://a.com"; "Z"]]) labels_df "URL" "Tag"
    = Ok (mk_db (articles (mk_db [] [["http://a.com"; "Z"]]))
            (labels (mk_db [] [["http://a.com"; "Z"]]) ++ rs)%list) /\
    map (fun r => nth 0 r "") rs = kept /\
    map (fun r => nth 1 r "") rs = firstn (length kept) ["X"; "Y"].
Proof.
  apply (process_labeled_data_rows (mk_db [] [["http://a.com"; "Z"]]) labels_df "URL" "Tag"
           ["http://a.com"; "http://b.com"] ["X"; "Y"]); reflexivity.
Defined.

(** A url column name that is not a column of the DataFrame raises
    KeyError for it (whatever the category column), and a missing category
    column raises KeyError for that name; in both cases nothing is written
    to Labels. *)
Theorem process_labeled_data_missing_column (d : db) (df : dataframe) (ucol lcol : string) :
  (~ In ucol (map fst df) ->
   process_labeled_data d df ucol lcol = Err (KeyError ucol)) /\
  (In ucol (map fst df) -> ~ In lcol (map fst df) ->
   process_labeled_data d df ucol lcol = Err (KeyError lcol)).
Proof.
  unfold process_labeled_data. split.
  - intros H. rewrite df_column_absent by exact H. reflexivity.
  - intros Hu Hl. destruct (df_column_present _ _ Hu) as [vs Hvs].
    rewrite Hvs; simpl py_bind. rewrite df_column_absent by exact Hl. reflexivity.
Qed.

End LabelExtras.

Module TrainingExtras.

Lemma in_inner_join (d : db) (c l : string) :
  In (c, l) (inner_join d) ->
  exists ar lr, In ar (articles d) /\ In lr (labels d) /\
    nth 1 ar "" = nth 0 lr "" /\ c = nth 5 ar "" /\ l = nth 1 lr "".
Proof.
  unfold inner_join. rewrite in_flat_map. intros [ar [Har Hin]].
  rewrite in_flat_map in Hin. destruct Hin as [lr [Hlr Hp]].
  destruct (String.eqb (nth 1 ar "") (nth 0 lr "")) eqn:E; [|destruct Hp].
  destruct Hp as [Hp|[]]. injection Hp as <- <-.
  apply String.eqb_eq in E. exists ar, lr. auto.
Qed.

(** [get_training_data] returns two lists of equal length, and at each
    position the text is the content of some stored article and the
    category that of some label row with the same url (in the returned
    pair the categories come first). *)
Theorem get_training_data_parallel (d : db) :
  length (fst (get_training_data d)) = length (snd (get_training_data d)) /\
  forall k c l,
    nth_error (snd (get_training_data d)) k = Some c ->
    nth_error (fst (get_training_data d)) k = Some l ->
    exists ar lr, In ar (articles d) /\ In lr (labels d) /\
      nth 1 ar "" = nth 0 lr "" /\ c = nth 5 ar "" /\ l = nth 1 lr "".
Proof.
  unfold get_training_data; simpl. split; [rewrite !length_map; reflexivity|].
  intros k c l Hc Hl. rewrite nth_error_map in Hc, Hl.
  destruct (nth_error (inner_join d) k) as [[c' l']|] eqn:E; [|discriminate].
  simpl in Hc, Hl. injection Hc as <-. injection Hl as <-.
  apply in_inner_join, (nth_error_In _ _ E).
Qed.

Definition case_dec (x y : string * string) : {x = y} + {x <> y}.
Proof. decide equality; apply String.string_dec. Defined.

Lemma combine_snd_fst (j : list (string * string)) :
  combine (map fst j) (map snd j) = j.
Proof. induction j as [|[x y] j IH]; simpl; [reflexivity|]. rewrite IH; reflexivity. Qed.

Definition join_match (c l : string) (p : sql_row * sql_row) : bool :=
  String.eqb (nth 1 (fst p) "") (nth 0 (snd p) "") &&
  String.eqb (nth 5 (fst p) "") c && String.eqb (nth 1 (snd p) "") l.

Lemma count_one_article (ar : sql_row) (ls : list sql_row) (c l : string) :
  count_occ case_dec
    (flat_map (fun lr => if String.eqb (nth 1 ar "") (nth 0 lr "")
                         then [(nth 5 ar "", nth 1 lr "")] else []) ls) (c, l) =
  length (filter (join_match c l) (map (pair ar) ls)).
Proof.
  induction ls as [|lr ls IH]; [reflexivity|].
  cbn [flat_map map filter]. unfold join_match at 1; cbn [fst snd].
  destruct (String.eqb (nth 1 ar "") (nth 0 lr "")) eqn:Eu; cbn [app andb]; [|exact IH].
  cbn [count_occ]. destruct (case_dec (nth 5 ar "", nth 1 lr "") (c, l)) as [E|E].
  - injection E as E1 E2. rewrite (proj2 (String.eqb_eq _ _) E1), (proj2 (String.eqb_eq _ _) E2). cbn. rewrite IH; reflexivity.
  - destruct (String.eqb (nth 5 ar "") c) eqn:E1; cbn [andb]; [|exact IH].
    destruct (String.eqb (nth 1 lr "") l) eqn:E2; [|exact IH].
    apply String.eqb_eq in E1, E2. exfalso; apply E; rewrite E1, E2; reflexivity.
Qed.

(** The training cases form the join of the two tables: each pair
    (text, category) occurs as many times as there are pairs of an
    Articles row and a Labels row with the same url, that text as content
    and that category.  So an article gets one case per label row with its
    url (duplicate labels duplicate cases), and a label whose url has no
    article gives none. *)
Theorem get_training_data_count (d : db) (c l : string) :
  count_occ case_dec (combine (snd (get_training_data d)) (fst (get_training_data d))) (c, l) =
  length (filter (join_match c l) (list_prod (articles d) (labels d))).
Proof.
  unfold get_training_data; simpl. rewrite combine_snd_fst. unfold inner_join.
  induction (articles d) as [|ar ars IH]; simpl; [reflexivity|].
  rewrite count_occ_app, IH, count_one_article, filter_app, length_app. reflexivity.
Qed.

End TrainingExtras.

Module FetchExtras.

Lemma count_occ_filter (f : string -> bool) (l : list string) (u : string) :
  count_occ String.string_dec (filter f l) u =
  if f u then count_occ String.string_dec l u else 0%nat.
Proof.
  induction l as [|x xs IH]; simpl; [destruct (f u); reflexivity|].
  destruct (f x) eqn:Fx; simpl; rewrite IH;
    destruct (String.string_dec x u) as [->|Hne]; rewrite ?Fx; try reflexivity.
Qed.

(** [process_urls] does not deduplicate within the CSV: a url absent from
    Articles is handed to the scrape collaborator as many times as it occurs
    in the url column, and a stored url never. *)
Theorem process_urls_scrape_count
  (scrape : string -> bool -> scrape_result)
  (as_completed : list scrape_result -> list scrape_result)
  (d : db) (ds : dataset) (url_column : column_arg) (scrape_pdfs : bool)
  (urls : list string) (u : string) :
  urls_from_csv ds url_column 1 = Ok urls ->
  count_occ String.string_dec (fst (process_urls scrape as_completed d ds url_column scrape_pdfs)) u =
  if py_in u (article_urls d) then 0%nat else count_occ String.string_dec urls u.
Proof.
  intros Hu. unfold process_urls. rewrite Hu. simpl fst.
  rewrite count_occ_filter. destruct (py_in u (article_urls d)); reflexivity.
Qed.

Lemma process_urls_scrape_count_witness :
  count_occ String.string_dec
    (fst (process_urls scrape_one_fails (fun fs => fs) init_db
            [["URL"]; ["http://a.com"]; ["http://a.com"]] (ColStr "URL") true)) "http://a.com" =
  (if py_in "http://a.com" (article_urls init_db) then 0%nat
   else count_occ String.string_dec ["http://a.com"; "http://a.com"] "http://a.com").
Proof. apply process_urls_scrape_count. reflexivity. Defined.

End FetchExtras.

Module SamplingExtras.

(** With [random=False] and an integer size between 0 and the number of
    urls, [sample_urls] returns the first [size] urls; a size above the
    number of urls, a size that is not a number, or a [random] that is not
    a bool raises ValueError (the size is checked first). *)
Theorem sample_urls_direct (rng : nat -> nat) (urls : list string) (z : Z) :
  (0 <= z <= Z.of_nat (length urls))%Z ->
  sample_urls rng urls (SizeInt z) (RandBool false) = Ok (firstn (Z.to_nat z) urls) /\
  sample_urls rng urls (SizeInt z) RandOther =
    Err (ValueError "Invalid value for random. Please specify True or False.") /\
  (forall z' r, (Z.of_nat (length urls) < z')%Z -> sample_urls rng urls (SizeInt z') r =
     Err (ValueError "Sample size cannot be larger than the number of urls.")) /\
  (forall r, sample_urls rng urls SizeNotNumber r =
     Err (ValueError "Invalid sample size. Please specify required sample size as a float between 0.0 and 1.0 or as an integer.")).
Proof.
  intros Hz. unfold sample_urls.
  replace (z <=? Z.of_nat (length urls))%Z with true by (symmetry; apply Z.leb_le; lia).
  split; [|split; [reflexivity|split]].
  - simpl. unfold py_slice_to. replace (0 <=? z)%Z with true by (symmetry; apply Z.leb_le; lia).
    reflexivity.
  - intros z' r Hz'. replace (z' <=? Z.of_nat (length urls))%Z with false
      by (symmetry; apply Z.leb_gt; lia). reflexivity.
  - intros r; reflexivity.
Qed.

Lemma sample_urls_direct_witness :
  sample_urls (fun k => k) ["u1"; "u2"; "u3"] (SizeInt 2) (RandBool false)
    = Ok (firstn (Z.to_nat 2) ["u1"; "u2"; "u3"]) /\
  sample_urls (fun k => k) ["u1"; "u2"; "u3"] (SizeInt 2) RandOther =
    Err (ValueError "Invalid value for random. Please specify True or False.") /\
  (forall z' r, (Z.of_nat (length ["u1"; "u2"; "u3"]) < z')%Z ->
     sample_urls (fun k => k) ["u1"; "u2"; "u3"] (SizeInt z') r =
     Err (ValueError "Sample size cannot be larger than the number of urls.")) /\
  (forall r, sample_urls (fun k => k) ["u1"; "u2"; "u3"] SizeNotNumber r =
     Err (ValueError "Invalid sample size. Please specify required sample size as a float between 0.0 and 1.0 or as an integer.")).
Proof. apply sample_urls_direct. simpl; lia. Defined.

(** A negative integer size [-k] passes the size check: with
    [random=False] the slice [urls[:-k]] drops the last [k] urls, while
    with [random=True] numpy's choice raises ValueError. *)
Theorem sample_urls_negative_size (rng : nat -> nat) (urls : list string) (k : nat) :
  (1 <= k)%nat ->
  sample_urls rng urls (SizeInt (- Z.of_nat k)) (RandBool false) =
    Ok (firstn (length urls - k) urls) /\
  exists msg, sample_urls rng urls (SizeInt (- Z.of_nat k)) (RandBool true) = Err (ValueError msg).
Proof.
  intros Hk. unfold sample_urls.
  replace (- Z.of_nat k <=? Z.of_nat (length urls))%Z with true by (symmetry; apply Z.leb_le; lia).
  simpl py_bind. split.
  - unfold py_slice_to. replace (0 <=? - Z.of_nat k)%Z with false by (symmetry; apply Z.leb_gt; lia).
    f_equal. f_equal. lia.
  - unfold np_random_choice.
    replace (- Z.of_nat k =? 0)%Z with false by (symmetry; apply Z.eqb_neq; lia).
    replace (- Z.of_nat k <? 0)%Z with true by (symmetry; apply Z.ltb_lt; lia).
    destruct (Nat.eqb (length urls) 0); simpl; eexists; reflexivity.
Qed.

Lemma sample_urls_negative_size_witness :
  sample_urls (fun k => k) ["u1"; "u2"; "u3"] (SizeInt (- Z.of_nat 1)) (RandBool false) =
    Ok (firstn (length ["u1"; "u2"; "u3"] - 1) ["u1"; "u2"; "u3"]) /\
  exists msg, sample_urls (fun k => k) ["u1"; "u2"; "u3"] (SizeInt (- Z.of_nat 1)) (RandBool true)
              = Err (ValueError msg).
Proof. apply sample_urls_negative_size. lia. Defined.

(** With [random=True] and an integer size between 0 and the number of
    urls, [sample_urls] returns [size] urls, each one of the input urls
    (drawn with replacement), whatever the generator draws. *)
Theorem sample_urls_random (rng : nat -> nat) (urls : list string) (z : Z) :
  (0 <= z <= Z.of_nat (length urls))%Z ->
  exists l, sample_urls rng urls (SizeInt z) (RandBool true) = Ok l /\
    length l = Z.to_nat z /\ forall x, In x l -> In x urls.
Proof.
  intros Hz. unfold sample_urls.
  replace (z <=? Z.of_nat (length urls))%Z with true by (symmetry; apply Z.leb_le; lia).
  simpl py_bind. unfold np_random_choice.
  destruct (Nat.eqb (length urls) 0) eqn:E.
  - apply Nat.eqb_eq in E. assert (z = 0%Z) as -> by lia. simpl.
    exists []; split; [reflexivity|]. split; [reflexivity|intros x []].
  - replace (z <? 0)%Z with false by (symmetry; apply Z.ltb_ge; lia). simpl.
    eexists; split; [reflexivity|]. split; [rewrite length_map, length_seq; reflexivity|].
    intros x Hx. apply in_map_iff in Hx as [k [<- _]].
    apply nth_In, Nat.mod_upper_bound. apply Nat.eqb_neq in E; exact E.
Qed.

Lemma sample_urls_random_witness :
  exists l, sample_urls (fun k => 7 * k)%nat ["u1"; "u2"; "u3"] (SizeInt 2) (RandBool true) = Ok l /\
    length l = Z.to_nat 2 /\ forall x, In x l -> In x ["u1"; "u2"; "u3"].
Proof. apply sample_urls_random. simpl; lia. Defined.

End SamplingExtras.

Module DictExtras.

Lemma dict_key_eqb_spec (k k' : dict_key) : dict_key_eqb k k' = true <-> k = k'.
Proof.
  destruct k as [s|], k' as [s'|]; simpl; split; intros H; try discriminate; try reflexivity.
  - apply String.eqb_eq in H; subst; reflexivity.
  - injection H as <-; apply String.eqb_refl.
Qed.

Lemma dict_key_eqb_sym (k k' : dict_key) : dict_key_eqb k k' = dict_key_eqb k' k.
Proof.
  destruct (dict_key_eqb k k') eqn:E; symmetry.
  - apply dict_key_eqb_spec in E; subst; apply dict_key_eqb_spec; reflexivity.
  - destruct (dict_key_eqb k' k) eqn:E'; [|reflexivity].
    apply dict_key_eqb_spec in E'; subst. rewrite (proj2 (dict_key_eqb_spec k k) eq_refl) in E.
    discriminate.
Qed.

Lemma dict_get_set (d : py_dict) (k k' : dict_key) (v : dict_val) :
  dict_get (dict_set d k v) k' = if dict_key_eqb k k' then Some v else dict_get d k'.
Proof.
  induction d as [|[k0 v0] d IH]; simpl; [reflexivity|].
  destruct (dict_key_eqb k0 k) eqn:E.
  - apply dict_key_eqb_spec in E; subst. simpl. destruct (dict_key_eqb k k'); reflexivity.
  - simpl. rewrite IH. destruct (dict_key_eqb k0 k') eqn:E'; [|reflexivity].
    apply dict_key_eqb_spec in E'; subst. rewrite dict_key_eqb_sym, E. reflexivity.
Qed.

Definition last_value (k : dict_key) (ps : list (dict_key * dict_val)) (acc : option dict_val)
  : option dict_val :=
  fold_left (fun acc p => if dict_key_eqb (fst p) k then Some (snd p) else acc) ps acc.

Lemma dict_get_fold (ps : list (dict_key * dict_val)) (d : py_dict) (k : dict_key) :
  dict_get (fold_left (fun d p => dict_set d (fst p) (snd p)) ps d) k =
  last_value k ps (dict_get d k).
Proof.
  revert d; induction ps as [|p ps IH]; intros d; simpl; [reflexivity|].
  rewrite IH, dict_get_set. reflexivity.
Qed.

Lemma last_value_absent (k : dict_key) (ps : list (dict_key * dict_val)) (acc : option dict_val) :
  (forall p, In p ps -> dict_key_eqb (fst p) k = false) -> last_value k ps acc = acc.
Proof.
  revert acc; induction ps as [|p ps IH]; intros acc H; simpl; [reflexivity|].
  rewrite (H p (or_introl eq_refl)). apply IH. intros q Hq; apply H; right; exact Hq.
Qed.

Lemma in_combine_fields (h r : list string) (p : dict_key * dict_val) :
  In p (combine (map KField h) (map VStr r)) ->
  exists s, fst p = KField s /\ In s h.
Proof.
  revert r; induction h as [|x h IH]; intros r Hp; [destruct Hp|].
  destruct r as [|y r]; [destruct Hp|]. simpl in Hp. destruct Hp as [<-|Hp].
  - exists x; simpl; auto.
  - destruct (IH r Hp) as [s [Hs Hin]]. exists s; simpl; auto.
Qed.

Lemma last_value_fields (h r : list string) (i : nat) (acc : option dict_val) :
  NoDup h -> (i < length h)%nat ->
  last_value (KField (nth i h "")) (combine (map KField h) (map VStr r)) acc =
  if Nat.ltb i (length r) then Some (VStr (nth i r "")) else acc.
Proof.
  revert r i acc; induction h as [|x h IH]; intros r i acc Hnd Hi; simpl in Hi; [lia|].
  inversion Hnd as [|? ? Hx Hnd']; subst.
  destruct r as [|y r].
  - destruct (Nat.ltb i 0) eqn:E; [apply Nat.ltb_lt in E; lia|]. reflexivity.
  - simpl. destruct i as [|i].
    + rewrite String.eqb_refl. simpl. apply last_value_absent.
      intros p Hp. destruct (in_combine_fields _ _ _ Hp) as [s [-> Hs]]. simpl.
      apply String.eqb_neq. intros ->. apply Hx. exact Hs.
    + assert (Hne : String.eqb x (nth i h "") = false).
      { apply String.eqb_neq. intros ->. apply Hx, nth_In. lia. }
      rewrite Hne. rewrite IH by (auto; lia). reflexivity.
Qed.

Lemma get_missing_fields (keys : list string) (d : py_dict) (k : dict_key) :
  dict_get (fold_left (fun d key => dict_set d (KField key) VNone) keys d) k =
  if existsb (fun key => dict_key_eqb (KField key) k) keys then Some VNone else dict_get d k.
Proof.
  revert d; induction keys as [|key keys IH]; intros d; cbn [fold_left existsb]; [reflexivity|].
  rewrite IH, dict_get_set.
  destruct (dict_key_eqb (KField key) k); cbn [orb]; [|reflexivity].
  destruct (existsb (fun key0 => dict_key_eqb (KField key0) k) keys); reflexivity.
Qed.

Lemma in_skipn_nth (h : list string) (n i : nat) :
  (n <= i < length h)%nat -> In (nth i h "") (skipn n h).
Proof.
  revert h i; induction n as [|n IH]; intros h i Hi.
  - apply nth_In; simpl; lia.
  - destruct h as [|x h]; simpl in Hi; [lia|].
    destruct i as [|i]; [lia|]. simpl. apply IH. lia.
Qed.

Lemma notin_skipn_nth (h : list string) (n i : nat) :
  NoDup h -> (i < n)%nat -> (i < length h)%nat -> ~ In (nth i h "") (skipn n h).
Proof.
  revert n i; induction h as [|x h IH]; intros n i Hnd Hin Hi; simpl in Hi; [lia|].
  inversion Hnd as [|? ? Hx Hnd']; subst.
  destruct n as [|n]; [lia|]. simpl.
  destruct i as [|i].
  - intros Hs. apply Hx. rewrite <- (firstn_skipn n h). apply in_or_app; right; exact Hs.
  - apply IH; [exact Hnd' | lia | lia].
Qed.

Lemma existsb_field (keys : list string) (s : string) :
  existsb (fun key => dict_key_eqb (KField key) (KField s)) keys = true <-> In s keys.
Proof.
  rewrite existsb_exists. split.
  - intros [x [Hx E]]. simpl in E. apply String.eqb_eq in E; subst; exact Hx.
  - intros H; exists s; split; [exact H | apply String.eqb_refl].
Qed.

Lemma existsb_field_none (keys : list string) :
  existsb (fun key => dict_key_eqb (KField key) KNone) keys = false.
Proof. induction keys; simpl; auto. Qed.

Lemma dict_of_fields_get (h r : list string) (i : nat) :
  NoDup h -> (i < length h)%nat ->
  dict_get (dict_of_pairs (combine (map KField h) (map VStr r))) (KField (nth i h "")) =
  if Nat.ltb i (length r) then Some (VStr (nth i r "")) else None.
Proof.
  intros Hnd Hi. unfold dict_of_pairs. rewrite dict_get_fold. apply last_value_fields; assumption.
Qed.

Lemma dict_of_fields_none (h r : list string) :
  dict_get (dict_of_pairs (combine (map KField h) (map VStr r))) KNone = None.
Proof.
  unfold dict_of_pairs. rewrite dict_get_fold. apply last_value_absent.
  intros p Hp. destruct (in_combine_fields _ _ _ Hp) as [s [-> _]]. reflexivity.
Qed.

Lemma dictreader_row_fields (h r : list string) :
  NoDup h ->
  (forall i, (i < length h)%nat ->
     dict_get (dictreader_row h r) (KField (nth i h "")) =
     Some (if Nat.ltb i (length r) then VStr (nth i r "") else VNone)) /\
  dict_get (dictreader_row h r) KNone =
    (if Nat.ltb (length h) (length r) then Some (VList (skipn (length h) r)) else None).
Proof.
  intros Hnd. unfold dictreader_row.
  destruct (Nat.ltb (length h) (length r)) eqn:E1.
  - apply Nat.ltb_lt in E1. split.
    + intros i Hi. rewrite dict_get_set. simpl.
      rewrite dict_of_fields_get by assumption.
      replace (Nat.ltb i (length r)) with true by (symmetry; apply Nat.ltb_lt; lia). reflexivity.
    + rewrite dict_get_set. reflexivity.
  - destruct (Nat.ltb (length r) (length h)) eqn:E2.
    + apply Nat.ltb_lt in E2. split.
      * intros i Hi. rewrite get_missing_fields.
        destruct (Nat.ltb i (length r)) eqn:E3.
        -- apply Nat.ltb_lt in E3.
           destruct (existsb _ (skipn (length r) h)) eqn:E4.
           ++ apply existsb_field in E4. exfalso; exact (notin_skipn_nth h _ i Hnd E3 Hi E4).
           ++ rewrite dict_of_fields_get by assumption.
              replace (Nat.ltb i (length r)) with true by (symmetry; apply Nat.ltb_lt; lia).
              reflexivity.
        -- apply Nat.ltb_ge in E3.
           replace (existsb _ (skipn (length r) h)) with true; [reflexivity|].
           symmetry; apply existsb_field, in_skipn_nth; lia.
      * rewrite get_missing_fields, existsb_field_none. apply dict_of_fields_none.
    + apply Nat.ltb_ge in E1. apply Nat.ltb_ge in E2. split.
      * intros i Hi. rewrite dict_of_fields_get by assumption.
        replace (Nat.ltb i (length r)) with true by (symmetry; apply Nat.ltb_lt; lia).
        reflexivity.
      * apply dict_of_fields_none.
Qed.

(** [csv2dict] yields one record per non-blank row after the header row,
    in order: the [k]-th record is read from the [k]-th non-blank row.
    With distinct field names, it maps every field name to the row's cell
    at its position, to [None] where the row is shorter than the header,
    and keeps the cells beyond the header as a list under the key
    [None]. *)
Theorem csv2dict_records (h : list string) (rows : dataset) :
  NoDup h ->
  let body := filter (fun r => match r with [] => false | _ => true end) rows in
  length (csv2dict (h :: rows)) = length body /\
  forall k r, nth_error body k = Some r ->
    exists rec, nth_error (csv2dict (h :: rows)) k = Some rec /\
      (forall i, (i < length h)%nat ->
         dict_get rec (KField (nth i h "")) =
         Some (if Nat.ltb i (length r) then VStr (nth i r "") else VNone)) /\
      dict_get rec KNone =
        (if Nat.ltb (length h) (length r) then Some (VList (skipn (length h) r)) else None).
Proof.
  intros Hnd body. simpl. split; [apply length_map|].
  intros k r Hr. rewrite nth_error_map. fold body. rewrite Hr. simpl.
  eexists; split; [reflexivity|]. apply dictreader_row_fields, Hnd.
Qed.

Lemma csv2dict_records_witness :
  let body := filter (fun r => match r with [] => false | _ => true end)
                [["a"; "X"]; []; ["b"]; ["c"; "Y"; "extra"]] in
  length (csv2dict (["URL"; "Tag"] :: [["a"; "X"]; []; ["b"]; ["c"; "Y"; "extra"]])) =
    length body /\
  forall k r, nth_error body k = Some r ->
    exists rec,
      nth_error (csv2dict (["URL"; "Tag"] :: [["a"; "X"]; []; ["b"]; ["c"; "Y"; "extra"]])) k
      = Some rec /\
      (forall i, (i < length ["URL"; "Tag"])%nat ->
         dict_get rec (KField (nth i ["URL"; "Tag"] "")) =
         Some (if Nat.ltb i (length r) then VStr (nth i r "") else VNone)) /\
      dict_get rec KNone =
        (if Nat.ltb (length ["URL"; "Tag"]) (length r)
         then Some (VList (skipn (length ["URL"; "Tag"]) r)) else None).
Proof.
  apply csv2dict_records. repeat constructor; simpl; intuition discriminate.
Defined.

End DictExtras.
